(** * Upload page and video tag: handlers of the two view components

    The two React components of the repository are embedded as functions on
    an explicit component state.  A handler that calls setters, touches a ref
    or talks to a collaborator (the socket, the notification slice, the
    router, the media element) becomes a state-passing function that also
    returns the list of collaborator calls it made, in order. *)

From Stdlib Require Import String List ZArith QArith Bool Lia Sorted.
Import ListNotations.
Open Scope string_scope.
Open Scope list_scope.
Open Scope Z_scope.

(** ** Upload page (upload-page component) *)

Module Upload.

(** The fields of a browser [File] that the page reads. *)
Record File := mkFile { type : string; size : Z }.

(** A handle on the socket returned by [createVideo]. *)
Definition Socket := nat.

(** State variable [compressionProgress]. *)
Record CompressionProgress := mkCompression { percent : Z; eta : string }.

(** Entries of the multipart body built by [onSubmit]. *)
Inductive FormEntry :=
| FormText (value : string)
| FormBlob (file : File).

Definition FormData := list (string * FormEntry).

(** Calls made to collaborators. *)
Inductive Effect :=
| ShowNotification (kind message : string)
| CreateVideo (formData : FormData) (meta : list (string * string))
| SocketEmit (sock : Socket) (event : string)
| SocketDisconnect (sock : Socket)
| Navigate (path : string).

(** Refs and state variables of [UploadPage]. *)
Record UploadState := mkUpload {
  socketRef : option Socket;
  isLoading : bool;
  videoFile : option File;
  uploadProgress : Z;
  compressionProgress : CompressionProgress;
  showProgressBox : bool
}.

(** Values of the hooks on first render. *)
Definition initialState : UploadState :=
  mkUpload None false None 0 (mkCompression 0 "") false.

(** *** Handler monad: state, thrown errors and collaborator calls *)

Inductive Completion (A : Type) :=
| Normal (a : A)
| Throw (message : string).
Arguments Normal {A} a.
Arguments Throw {A} message.

Record Run (A : Type) := mkRun {
  outcome : Completion A;
  after : UploadState;
  effects : list Effect
}.
Arguments mkRun {A} outcome after effects.
Arguments outcome {A}.
Arguments after {A}.
Arguments effects {A}.

Definition Action (A : Type) := UploadState -> Run A.

Definition ret {A} (a : A) : Action A := fun s => mkRun (Normal a) s [].

Definition bind {A B} (m : Action A) (k : A -> Action B) : Action B :=
  fun s =>
    match m s with
    | mkRun (Normal a) s1 e1 =>
        match k a s1 with
        | mkRun o s2 e2 => mkRun o s2 (e1 ++ e2)
        end
    | mkRun (Throw msg) s1 e1 => mkRun (Throw msg) s1 e1
    end.

Definition throw {A} (msg : string) : Action A := fun s => mkRun (Throw msg) s [].

Definition try_catch {A} (body : Action A) (handler : string -> Action A) : Action A :=
  fun s =>
    match body s with
    | mkRun (Normal a) s1 e1 => mkRun (Normal a) s1 e1
    | mkRun (Throw msg) s1 e1 =>
        match handler msg s1 with
        | mkRun o s2 e2 => mkRun o s2 (e1 ++ e2)
        end
    end.

Definition perform (e : Effect) : Action unit := fun s => mkRun (Normal tt) s [e].

Definition modify (f : UploadState -> UploadState) : Action unit :=
  fun s => mkRun (Normal tt) (f s) [].

Definition get {A} (proj : UploadState -> A) : Action A :=
  fun s => mkRun (Normal (proj s)) s [].

Notation "x <- m ;; k" := (bind m (fun x => k))
  (at level 61, m at next level, right associativity).
Notation "m ;; k" := (bind m (fun _ => k))
  (at level 61, right associativity).

(** Setters of the hooks and assignment to [socketRef.current]. *)
Definition setSocketRef (v : option Socket) : Action unit :=
  modify (fun s => mkUpload v (isLoading s) (videoFile s) (uploadProgress s)
                            (compressionProgress s) (showProgressBox s)).
Definition setIsLoading (v : bool) : Action unit :=
  modify (fun s => mkUpload (socketRef s) v (videoFile s) (uploadProgress s)
                            (compressionProgress s) (showProgressBox s)).
Definition setVideoFile (v : option File) : Action unit :=
  modify (fun s => mkUpload (socketRef s) (isLoading s) v (uploadProgress s)
                            (compressionProgress s) (showProgressBox s)).
Definition setUploadProgress (v : Z) : Action unit :=
  modify (fun s => mkUpload (socketRef s) (isLoading s) (videoFile s) v
                            (compressionProgress s) (showProgressBox s)).
Definition setCompressionProgress (v : CompressionProgress) : Action unit :=
  modify (fun s => mkUpload (socketRef s) (isLoading s) (videoFile s) (uploadProgress s)
                            v (showProgressBox s)).
Definition setShowProgressBox (v : bool) : Action unit :=
  modify (fun s => mkUpload (socketRef s) (isLoading s) (videoFile s) (uploadProgress s)
                            (compressionProgress s) v).

(** *** Handlers *)

(** Payload of a progress callback: a number for [upload], an object with
    [percent] and [eta] for [compress]. *)
Inductive Progress :=
| UploadP (value : Z)
| CompressP (value : CompressionProgress).

(** [progressFn] *)
Definition progressFn (p : Progress) : Action unit :=
  match p with
  | UploadP v => setUploadProgress v
  | CompressP v => setCompressionProgress v
  end.

(** [cancelFn] *)
Definition cancelFn : Action unit :=
  cur <- get socketRef ;;
  match cur with
  | Some sock =>
      perform (SocketEmit sock "cancelCompression") ;;
      perform (SocketDisconnect sock) ;;
      setSocketRef None
  | None => ret tt
  end ;;
  setShowProgressBox false ;;
  setIsLoading false ;;
  setUploadProgress 0 ;;
  setCompressionProgress (mkCompression 0 "").

(** [completeFn] *)
Definition completeFn (videoId : string) : Action unit :=
  perform (Navigate ("/video/" ++ videoId)).

(** [errFn]; the argument is [err.message]. *)
Definition errFn (message : string) : Action unit :=
  perform (ShowNotification "error" ("Compression error: " ++ message)) ;;
  cancelFn.

(** Values of the formik form. *)
Record FormValues := mkValues { caption : string; music : string; tags : string }.

(** How the awaited [createVideo] call settles. *)
Inductive CreateVideoResult :=
| Resolved (sock : Socket)
| Rejected (message : string).

Section OnSubmit.

(** [constants.videoSizeLimit], and the [auth] slice of the store. *)
Variable videoSizeLimit : Z.
Variables username token : string.

(** The [catch] block of [onSubmit]. *)
Definition onSubmit_catch (message : string) : Action unit :=
  setIsLoading false ;;
  perform (ShowNotification "error" message).

(** The [try] block up to the point where [createVideo] has been called. *)
Definition onSubmit_request (values : FormValues) : Action unit :=
  file <- get videoFile ;;
  match file with
  | None => throw "Invalid video"
  | Some f =>
      if negb (String.eqb (type f) "video/mp4") then throw "Invalid video"
      else if size f >? videoSizeLimit then throw "File too large"
      else
        let formData :=
          [ ("caption", FormText (caption values));
            ("tags", FormText (tags values));
            ("music", FormText (music values));
            ("username", FormText username);
            ("token", FormText token);
            ("video", FormBlob f) ] in
        setShowProgressBox true ;;
        perform (CreateVideo formData
                   [ ("caption", caption values);
                     ("music", music values);
                     ("tags", tags values);
                     ("username", username) ])
  end.

(** The rest of the [try] block, once the awaited call has settled. *)
Definition onSubmit_settle (r : CreateVideoResult) : Action unit :=
  match r with
  | Resolved sock => setSocketRef (Some sock)
  | Rejected message => throw message
  end.

(** [onSubmit] up to its [await]: the result tells whether the function is
    now suspended on [createVideo] ([true]) or has already returned. *)
Definition onSubmit_begin (values : FormValues) : Action bool :=
  setIsLoading true ;;
  try_catch (onSubmit_request values ;; ret true)
            (fun message => onSubmit_catch message ;; ret false).

(** [onSubmit] from its [await] to its end. *)
Definition onSubmit_resume (r : CreateVideoResult) : Action unit :=
  try_catch (onSubmit_settle r) onSubmit_catch.

(** [onSubmit] run to its end, [r] being how [createVideo] settles if it
    is called. *)
Definition onSubmit (values : FormValues) (r : CreateVideoResult) : Action unit :=
  setIsLoading true ;;
  try_catch (onSubmit_request values ;; onSubmit_settle r) onSubmit_catch.

(** *** The session: the page driven by its events *)

(** Phases of one submission, after the state machine of the upload
    progress controller ([Uploading] and [Compressing] are one phase, since
    both progress values update within the same active session). *)
Inductive Phase := Idle | Submitting | Active | Completed | Cancelled | Errored.

(** A submission has been initiated and has not reached a terminal outcome. *)
Definition in_flight (ph : Phase) : bool :=
  match ph with
  | Submitting | Active => true
  | _ => false
  end.

Inductive Event :=
| SelectFile (f : option File)
| Submit (values : FormValues)
| Settle (r : CreateVideoResult)
| OnProgress (p : Progress)
| OnComplete (videoId : string)
| OnError (message : string)
| Cancel.

Record Session := mkSession {
  page : UploadState;
  phase : Phase;
  log : list Effect
}.

Definition initialSession : Session := mkSession initialState Idle [].

(** Runs a handler on the page and records its collaborator calls. *)
Definition handle {A} (h : Action A) (next : Phase) (s : Session) : Session :=
  match h (page s) with
  | mkRun _ s1 e1 => mkSession s1 next (log s ++ e1)
  end.

Definition is_some {A} (o : option A) : bool :=
  match o with Some _ => true | None => false end.

(** Modelled from the spec: [createVideo] (the video API client) is not
    among the sources.  Its result and its callbacks are taken to arrive as
    the description of the channel says: the awaited call settles once, while
    the submission is being made; progress is reported once the submission
    is under way; completion and errors are delivered on the open channel. *)
Definition delivered (ph : Phase) (e : Event) : bool :=
  match e, ph with
  | Settle _, Submitting => true
  | Settle _, _ => false
  | OnProgress _, (Submitting | Active) => true
  | OnProgress _, _ => false
  | (OnComplete _ | OnError _), Active => true
  | (OnComplete _ | OnError _), _ => false
  | (SelectFile _ | Submit _ | Cancel), _ => true
  end.

(** What the rendered page lets the user do: the Post button is disabled
    without a file or while [isLoading] (the validity of the text fields,
    which formik checks, is left open), and the Cancel button is disabled
    while [socketRef.current] is null. *)
Definition offered (e : Event) (pg : UploadState) : bool :=
  match e with
  | Submit _ => is_some (videoFile pg) && negb (isLoading pg)
  | Cancel => is_some (socketRef pg)
  | _ => true
  end.

(** The page is unmounted once [completeFn] has navigated away. *)
Definition mounted (ph : Phase) : bool :=
  match ph with
  | Completed => false
  | _ => true
  end.

(** The handler that an event runs, and the phase the session is in next. *)
Definition react (e : Event) (s : Session) : Session :=
  match e with
  | SelectFile f => handle (setVideoFile f) (phase s) s
  | Submit values =>
      match onSubmit_begin values (page s) with
      | mkRun (Normal true) s1 e1 => mkSession s1 Submitting (log s ++ e1)
      | mkRun _ s1 e1 => mkSession s1 Idle (log s ++ e1)
      end
  | Settle (Resolved sock) => handle (onSubmit_resume (Resolved sock)) Active s
  | Settle (Rejected message) => handle (onSubmit_resume (Rejected message)) Idle s
  | OnProgress p => handle (progressFn p) (phase s) s
  | OnComplete videoId => handle (completeFn videoId) Completed s
  | OnError message => handle (errFn message) Errored s
  | Cancel => handle cancelFn Cancelled s
  end.

(** One event; [None] when the event cannot occur. *)
Definition fire (e : Event) (s : Session) : option Session :=
  if mounted (phase s) && delivered (phase s) e && offered e (page s)
  then Some (react e s)
  else None.

(** The socket reference is held exactly in the phases [Active] and
    [Completed], and the form is loading while a submission is in flight. *)
Definition channel_inv (s : Session) : Prop :=
  (socketRef (page s) <> None <-> phase s = Active \/ phase s = Completed) /\
  (in_flight (phase s) = true -> isLoading (page s) = true).

Fixpoint run (tr : list Event) (s : Session) : option Session :=
  match tr with
  | [] => Some s
  | e :: tr' =>
      match fire e s with
      | Some s' => run tr' s'
      | None => None
      end
  end.

End OnSubmit.

(** *** Histories of the progress values *)

(** The values [uploadProgress] takes while the progress handler runs on a
    sequence of callbacks: the value before, then the value after each call. *)
Fixpoint uploadHistory (ps : list Progress) (s : UploadState) : list Z :=
  uploadProgress s ::
  match ps with
  | [] => []
  | p :: ps' => uploadHistory ps' (after (progressFn p s))
  end.

(** The same for [compressionProgress.percent]. *)
Fixpoint percentHistory (ps : list Progress) (s : UploadState) : list Z :=
  percent (compressionProgress s) ::
  match ps with
  | [] => []
  | p :: ps' => percentHistory ps' (after (progressFn p s))
  end.

(** The upload values, and the compression percentages, that a sequence of
    callbacks delivers. *)
Fixpoint uploadsReceived (ps : list Progress) : list Z :=
  match ps with
  | [] => []
  | UploadP v :: ps' => v :: uploadsReceived ps'
  | CompressP _ :: ps' => uploadsReceived ps'
  end.

Fixpoint percentsReceived (ps : list Progress) : list Z :=
  match ps with
  | [] => []
  | UploadP _ :: ps' => percentsReceived ps'
  | CompressP v :: ps' => percent v :: percentsReceived ps'
  end.

Fixpoint compressionsReceived (ps : list Progress) : list CompressionProgress :=
  match ps with
  | [] => []
  | UploadP _ :: ps' => compressionsReceived ps'
  | CompressP v :: ps' => v :: compressionsReceived ps'
  end.

(** The progress handler run on a sequence of callbacks, in order. *)
Fixpoint progressAll (ps : list Progress) : Action unit :=
  match ps with
  | [] => ret tt
  | p :: ps' => progressFn p ;; progressAll ps'
  end.

(** *** What the page renders *)

(** The preview replaces the placeholder when
    [videoFile?.type === "video/mp4"]. *)
Definition previewShown (s : UploadState) : bool :=
  match videoFile s with
  | Some f => String.eqb (type f) "video/mp4"
  | None => false
  end.

(** The [disabled] attribute of the Post button; [dirty] and [isValid] are
    formik's. *)
Definition postDisabled (dirty isValid : bool) (s : UploadState) : bool :=
  negb dirty || negb isValid || negb (is_some (videoFile s)) || isLoading s.

(** *** The calls made on the socket *)

(** Reads a list of collaborator calls and accepts it when the only event
    emitted on a socket is cancelCompression, each emission is followed at
    once by the disconnection of the same socket, and no socket is
    disconnected otherwise.  [expect] is the socket whose disconnection is
    due. *)
Fixpoint socket_discipline (expect : option Socket) (l : list Effect) : bool :=
  match l with
  | [] => negb (is_some expect)
  | e :: l' =>
      match expect, e with
      | None, SocketEmit sock event =>
          String.eqb event "cancelCompression" && socket_discipline (Some sock) l'
      | Some sock, SocketDisconnect sock' =>
          Nat.eqb sock sock' && socket_discipline None l'
      | None, SocketDisconnect _ => false
      | Some _, _ => false
      | None, _ => socket_discipline None l'
      end
  end.

(** The two arguments that [onSubmit] passes to [createVideo]: the multipart
    body, with the file appended last, and the form values with the user
    name. *)
Definition multipart (username token : string) (values : FormValues) (f : File) : FormData :=
  [ ("caption", FormText (caption values));
    ("tags", FormText (tags values));
    ("music", FormText (music values));
    ("username", FormText username);
    ("token", FormText token);
    ("video", FormBlob f) ].

Definition metadata (username : string) (values : FormValues) : list (string * string) :=
  [ ("caption", caption values);
    ("music", music values);
    ("tags", tags values);
    ("username", username) ].

(** The file passes the checks of [onSubmit]. *)
Definition acceptable (videoSizeLimit : Z) (s : UploadState) : Prop :=
  exists f, videoFile s = Some f /\ type f = "video/mp4" /\ size f <= videoSizeLimit.

(** While a submission is being made, is active or has completed, the
    progress box is rendered. *)
Definition box_inv (s : Session) : Prop :=
  match phase s with
  | Submitting | Active | Completed => showProgressBox (page s) = true
  | _ => True
  end.

(** *** Sample inputs: a 10 MB MP4 under a 100 MB limit, and the state of
    the page once that file has been selected *)
Definition sampleFile : File := mkFile "video/mp4" 10485760.
Definition sampleValues : FormValues := mkValues "Hello" "" "#fun".
Definition sampleLimit : Z := 104857600.
Definition sampleState : UploadState :=
  mkUpload None false (Some sampleFile) 0 (mkCompression 0 "") false.
Definition oversizedState : UploadState :=
  mkUpload None false (Some (mkFile "video/mp4" 629145600)) 0 (mkCompression 0 "") false.
Definition uploadingState : UploadState :=
  mkUpload (Some 7%nat) true (Some sampleFile) 100 (mkCompression 40 "12s") true.
Definition sampleTrace : list Event :=
  [SelectFile (Some sampleFile); Submit sampleValues; Settle (Resolved 1%nat)].

End Upload.

(** ** Video tag (video-tag component) *)

Module VideoTag.

(** Media times are JavaScript numbers; the component only copies them. *)
Definition Time := Q.

(** The properties of the [HTMLVideoElement] that the component reads or
    writes. *)
Record Video := mkVideo {
  paused : bool;
  currentTime : Time;
  duration : Time;
  muted : bool
}.

(** [vid.play()] and [vid.pause()] as they act on the [paused] attribute. *)
Definition video_play (v : Video) : Video :=
  mkVideo false (currentTime v) (duration v) (muted v).
Definition video_pause (v : Video) : Video :=
  mkVideo true (currentTime v) (duration v) (muted v).
Definition video_seek (t : Time) (v : Video) : Video :=
  mkVideo (paused v) t (duration v) (muted v).
Definition video_mute (m : bool) (v : Video) : Video :=
  mkVideo (paused v) (currentTime v) (duration v) m.

(** Method calls on the element and on the mouse event. *)
Inductive Call := Play | Pause | StopPropagation | PreventDefault.

(** Refs and state variables of [VideoTag]. *)
Record Player := mkPlayer {
  videoRef : option Video;
  wasPlaying : bool;
  vidDuration : string;
  isMuted : bool;
  isPlaying : bool;
  showSpinner : bool;
  showControls : bool;
  curTime : Time
}.

Definition withVideo (v : Video) (s : Player) : Player :=
  mkPlayer (Some v) (wasPlaying s) (vidDuration s) (isMuted s) (isPlaying s)
           (showSpinner s) (showControls s) (curTime s).
Definition setWasPlaying (b : bool) (s : Player) : Player :=
  mkPlayer (videoRef s) b (vidDuration s) (isMuted s) (isPlaying s)
           (showSpinner s) (showControls s) (curTime s).
Definition setVidDuration (d : string) (s : Player) : Player :=
  mkPlayer (videoRef s) (wasPlaying s) d (isMuted s) (isPlaying s)
           (showSpinner s) (showControls s) (curTime s).
Definition setIsMuted (b : bool) (s : Player) : Player :=
  mkPlayer (videoRef s) (wasPlaying s) (vidDuration s) b (isPlaying s)
           (showSpinner s) (showControls s) (curTime s).
Definition setIsPlaying (b : bool) (s : Player) : Player :=
  mkPlayer (videoRef s) (wasPlaying s) (vidDuration s) (isMuted s) b
           (showSpinner s) (showControls s) (curTime s).
Definition setShowSpinner (b : bool) (s : Player) : Player :=
  mkPlayer (videoRef s) (wasPlaying s) (vidDuration s) (isMuted s) (isPlaying s)
           b (showControls s) (curTime s).
Definition setShowControls (b : bool) (s : Player) : Player :=
  mkPlayer (videoRef s) (wasPlaying s) (vidDuration s) (isMuted s) (isPlaying s)
           (showSpinner s) b (curTime s).
Definition setCurTime (t : Time) (s : Player) : Player :=
  mkPlayer (videoRef s) (wasPlaying s) (vidDuration s) (isMuted s) (isPlaying s)
           (showSpinner s) (showControls s) t.

(** State on first render, with the [muted] prop and the mounted element. *)
Definition initialPlayer (mutedProp : option bool) (v : Video) : Player :=
  mkPlayer (Some v) false "00:00"
           (match mutedProp with Some b => b | None => false end)
           false true false 0%Q.

(** Events of the video element that the first effect listens to. *)
Inductive VideoEvent :=
| Loadedmetadata | Loadeddata | Waiting | Playing
| PlayEvent | PauseEvent | Timeupdate | Click.

(** [handleClick], the listener of the element's click event. *)
Definition handleClick (v : Video) : Video * list Call :=
  if negb (paused v) then (video_pause v, [Pause]) else (v, []).

Section Handlers.

(** [getTimeFromSeconds] of the common utilities. *)
Variable getTimeFromSeconds : Time -> string.

(** The listeners registered by the first effect. *)
Definition onVideoEvent (ev : VideoEvent) (s : Player) : Player * list Call :=
  match videoRef s with
  | None => (s, [])
  | Some vid =>
      match ev with
      | Loadedmetadata => (setVidDuration (getTimeFromSeconds (duration vid)) s, [])
      | Loadeddata => (setShowSpinner false s, [])
      | Waiting => (setShowSpinner true s, [])
      | Playing => (setShowSpinner false s, [])
      | PlayEvent => (setIsPlaying true s, [])
      | PauseEvent => (setIsPlaying false s, [])
      | Timeupdate => (setCurTime (currentTime vid) s, [])
      | Click => let (vid', calls) := handleClick vid in (withVideo vid' s, calls)
      end
  end.

(** [handlePlayPause] *)
Definition handlePlayPause (s : Player) : Player * list Call :=
  match videoRef s with
  | None => (s, [])
  | Some vid =>
      if paused vid
      then (withVideo (video_play vid) s, [Play; StopPropagation; PreventDefault])
      else (withVideo (video_pause vid) s, [Pause; StopPropagation; PreventDefault])
  end.

(** [changeTime] *)
Definition changeTime (d : Time) (s : Player) : Player * list Call :=
  match videoRef s with
  | None => (s, [])
  | Some vid => (setCurTime d (withVideo (video_seek d vid) s), [])
  end.

(** [handleSeek]; the argument is [e.type]. *)
Definition handleSeek (etype : string) (s : Player) : Player * list Call :=
  match videoRef s with
  | None => (s, [])
  | Some vid =>
      if String.eqb etype "mousedown"
      then (withVideo (video_pause vid) (setWasPlaying (isPlaying s) s), [Pause])
      else if wasPlaying s
           then (withVideo (video_play vid) s, [Play])
           else (s, [])
  end.

(** [handleMute] *)
Definition handleMute (s : Player) : Player * list Call :=
  match videoRef s with
  | None => (s, [])
  | Some vid =>
      (setIsMuted (negb (isMuted s)) (withVideo (video_mute (negb (isMuted s)) vid) s), [])
  end.

(** What can happen between pressing and releasing the seek bar: the range
    input changes, or the element fires one of its events. *)
Inductive Scrub :=
| Drag (t : Time)
| Fired (ev : VideoEvent).

Definition scrub (g : Scrub) (s : Player) : Player * list Call :=
  match g with
  | Drag t => changeTime t s
  | Fired ev => onVideoEvent ev s
  end.

Fixpoint scrubAll (gs : list Scrub) (s : Player) : Player * list Call :=
  match gs with
  | [] => (s, [])
  | g :: gs' =>
      let (s1, c1) := scrub g s in
      let (s2, c2) := scrubAll gs' s1 in
      (s2, c1 ++ c2)
  end.

(** A whole seek gesture: mousedown, scrubbing, mouseup. *)
Definition seekGesture (gs : list Scrub) (s : Player) : Player * list Call :=
  let (s1, c1) := handleSeek "mousedown" s in
  let (s2, c2) := scrubAll gs s1 in
  let (s3, c3) := handleSeek "mouseup" s2 in
  (s3, c1 ++ c2 ++ c3).

(** The position the scrubbing leaves: the last dragged value, if any. *)
Fixpoint lastDrag (gs : list Scrub) (t0 : Time) : Time :=
  match gs with
  | [] => t0
  | Drag t :: gs' => lastDrag gs' t
  | Fired _ :: gs' => lastDrag gs' t0
  end.

(** Events of the container that the second effect listens to. *)
Inductive ContainerEvent := Mouseenter | Mouseleave.

(** The listeners registered by the second effect: none without the
    [controls] prop (the container is mounted when the effect runs). *)
Definition onContainerEvent (controls : bool) (ev : ContainerEvent) (s : Player) : Player :=
  if negb controls then s
  else match ev with
       | Mouseenter => setShowControls true s
       | Mouseleave => setShowControls false s
       end.

(** The overlay with the buttons and the seek bar is rendered when
    [controls && !showSpinner && showControls]. *)
Definition controlsShown (controls : bool) (s : Player) : bool :=
  controls && negb (showSpinner s) && showControls s.

(** Everything the component reacts to. *)
Inductive Input :=
| OnVideo (ev : VideoEvent)
| OnContainer (ev : ContainerEvent)
| PlayPauseClick
| MuteClick
| SeekChange (t : Time)
| SeekMouse (etype : string).

Definition playerStep (controls : bool) (i : Input) (s : Player) : Player * list Call :=
  match i with
  | OnVideo ev => onVideoEvent ev s
  | OnContainer ev => (onContainerEvent controls ev s, [])
  | PlayPauseClick => handlePlayPause s
  | MuteClick => handleMute s
  | SeekChange t => changeTime t s
  | SeekMouse etype => handleSeek etype s
  end.

Fixpoint playerRun (controls : bool) (inputs : list Input) (s : Player) : Player * list Call :=
  match inputs with
  | [] => (s, [])
  | i :: inputs' =>
      let (s1, c1) := playerStep controls i s in
      let (s2, c2) := playerRun controls inputs' s1 in
      (s2, c1 ++ c2)
  end.

(** The inputs whose handler can call [play]: the play button, and a mouse
    event on the seek bar other than mousedown. *)
Definition mayPlay (i : Input) : bool :=
  match i with
  | PlayPauseClick => true
  | SeekMouse etype => negb (String.eqb etype "mousedown")
  | _ => false
  end.

(** Whether the pointer is over the container after the container events
    of [inputs], when it was [b0] before. *)
Fixpoint pointerInside (inputs : list Input) (b0 : bool) : bool :=
  match inputs with
  | [] => b0
  | OnContainer Mouseenter :: inputs' => pointerInside inputs' true
  | OnContainer Mouseleave :: inputs' => pointerInside inputs' false
  | _ :: inputs' => pointerInside inputs' b0
  end.

(** The state variables that mirror the element agree with it. *)
Definition synced (s : Player) : Prop :=
  match videoRef s with
  | Some vid => curTime s = currentTime vid /\ isMuted s = muted vid
  | None => True
  end.

End Handlers.

End VideoTag.

(** ** Profile card (profile-card component) *)

Module ProfileCard.

(** Calls made by the card: on the video element under the pointer, and to
    [modifyScrollbar] of the common utilities. *)
Inductive Effect :=
| ElementPlay
| ElementPause
| ModifyScrollbar (mode : string).

(** The video element of the card and the state variable [showModal]. *)
Record Card := mkCard {
  video : VideoTag.Video;
  showModal : bool
}.

(** The three listeners of the element. *)
Inductive CardEvent := MouseOver | MouseOut | CardClick.

(** [handleModalOpen] *)
Definition handleModalOpen (c : Card) : Card * list Effect :=
  (mkCard (video c) true, [ModifyScrollbar "hide"]).

Definition onCardEvent (ev : CardEvent) (c : Card) : Card * list Effect :=
  match ev with
  | MouseOver => (mkCard (VideoTag.video_play (video c)) (showModal c), [ElementPlay])
  | MouseOut => (mkCard (VideoTag.video_pause (video c)) (showModal c), [ElementPause])
  | CardClick => handleModalOpen c
  end.

Fixpoint cardRun (evs : list CardEvent) (c : Card) : Card * list Effect :=
  match evs with
  | [] => (c, [])
  | ev :: evs' =>
      let (c1, e1) := onCardEvent ev c in
      let (c2, e2) := cardRun evs' c1 in
      (c2, e1 ++ e2)
  end.

(** Whether the element is paused after the hover events of [evs], when it
    was [p0] before. *)
Fixpoint pausedAfter (evs : list CardEvent) (p0 : bool) : bool :=
  match evs with
  | [] => p0
  | MouseOver :: evs' => pausedAfter evs' false
  | MouseOut :: evs' => pausedAfter evs' true
  | CardClick :: evs' => pausedAfter evs' p0
  end.

Definition isClick (ev : CardEvent) : bool :=
  match ev with CardClick => true | _ => false end.

End ProfileCard.

(** ** Properties of the upload page *)

Module UploadFacts.
Import Upload.

(** Unfolds the handler monad so that a handler run on a state computes. *)
Ltac run_handler :=
  unfold onSubmit, onSubmit_begin, onSubmit_resume, onSubmit_request,
    onSubmit_settle, onSubmit_catch, errFn, cancelFn, completeFn, progressFn,
    setSocketRef, setIsLoading, setVideoFile, setUploadProgress,
    setCompressionProgress, setShowProgressBox,
    try_catch, bind, ret, throw, perform, modify, get in *;
  cbn [outcome after effects app socketRef isLoading videoFile uploadProgress
       compressionProgress showProgressBox] in *.

(** A state is determined by its six fields. *)
Lemma UploadState_eta (s : UploadState) :
  s = mkUpload (socketRef s) (isLoading s) (videoFile s) (uploadProgress s)
               (compressionProgress s) (showProgressBox s).
Proof. destruct s; reflexivity. Qed.

(** What [cancelFn] computes, by whether a socket is held. *)
Lemma cancelFn_run (s : UploadState) :
  cancelFn s =
  mkRun (Normal tt)
        (mkUpload None false (videoFile s) 0 (mkCompression 0 "") false)
        (match socketRef s with
         | Some sock => [SocketEmit sock "cancelCompression"; SocketDisconnect sock]
         | None => []
         end).
Proof.
  destruct s as [[sock |] loading file up comp box]; reflexivity.
Qed.

Section Page.

Variable videoSizeLimit : Z.
Variables username token : string.

Local Abbreviation onSubmit := (onSubmit videoSizeLimit username token).
Local Abbreviation onSubmit_begin := (onSubmit_begin videoSizeLimit username token).
Local Abbreviation onSubmit_request := (onSubmit_request videoSizeLimit username token).

(** The validation of [onSubmit] throws on a file of the wrong type or size. *)
Lemma onSubmit_request_invalid (values : FormValues) (s : UploadState) (f : File) :
  videoFile s = Some f ->
  type f <> "video/mp4" \/ size f > videoSizeLimit ->
  exists message,
    onSubmit_request values s = mkRun (Throw message) s [] /\
    (message = "Invalid video" \/ message = "File too large").
Proof.
  intros Hfile Hbad. unfold Upload.onSubmit_request, bind, get, throw.
  cbn [outcome after effects]. rewrite Hfile.
  destruct (String.eqb_spec (type f) "video/mp4") as [Heq | Hne]; cbn [negb].
  - destruct Hbad as [Hty | Hsz]; [contradiction |].
    assert (Hgt : (size f >? videoSizeLimit) = true)
      by (rewrite Z.gtb_ltb; apply Z.ltb_lt; lia).
    rewrite Hgt. exists "File too large". split; [reflexivity | now right].
  - exists "Invalid video". split; [reflexivity | now left].
Qed.

(** Running [onSubmit] to its await and resuming it when [createVideo] has
    settled is running it through. *)
Lemma onSubmit_split (values : FormValues) (r : CreateVideoResult) (s : UploadState) :
  onSubmit values r s =
  (reached <- onSubmit_begin values ;;
   if reached then Upload.onSubmit_resume r else ret tt) s.
Proof.
  unfold Upload.onSubmit, Upload.onSubmit_begin, onSubmit_resume, Upload.onSubmit_request,
    onSubmit_settle, onSubmit_catch, setIsLoading, setSocketRef, setShowProgressBox,
    try_catch, bind, ret, throw, perform, modify, get.
  cbn [videoFile].
  destruct (videoFile s) as [f |]; [| reflexivity].
  destruct (negb (type f =? "video/mp4")%string); [reflexivity |].
  destruct (size f >? videoSizeLimit); [reflexivity |].
  destruct r; reflexivity.
Qed.

(** C1: when the selected file is not of type video/mp4 or is larger than
    videoSizeLimit, onSubmit returns without reaching the createVideo call:
    it makes no call to createVideo, its only collaborator call is one error
    notification, and socketRef, uploadProgress, compressionProgress and
    showProgressBox are what they were. *)
Theorem onSubmit_rejects_invalid_file
    (values : FormValues) (r : CreateVideoResult) (s : UploadState) (f : File) :
  videoFile s = Some f ->
  type f <> "video/mp4" \/ size f > videoSizeLimit ->
  outcome (onSubmit_begin values s) = Normal false /\
  outcome (onSubmit values r s) = Normal tt /\
  (exists message, effects (onSubmit values r s) = [ShowNotification "error" message]) /\
  (forall formData meta, ~ In (CreateVideo formData meta) (effects (onSubmit values r s))) /\
  socketRef (after (onSubmit values r s)) = socketRef s /\
  uploadProgress (after (onSubmit values r s)) = uploadProgress s /\
  compressionProgress (after (onSubmit values r s)) = compressionProgress s /\
  showProgressBox (after (onSubmit values r s)) = showProgressBox s.
Proof.
  intros Hfile Hbad.
  assert (Hreq : exists message,
             onSubmit_request values
               (mkUpload (socketRef s) true (videoFile s) (uploadProgress s)
                         (compressionProgress s) (showProgressBox s))
             = mkRun (Throw message)
                 (mkUpload (socketRef s) true (videoFile s) (uploadProgress s)
                           (compressionProgress s) (showProgressBox s)) []).
  { destruct (onSubmit_request_invalid values
                (mkUpload (socketRef s) true (videoFile s) (uploadProgress s)
                          (compressionProgress s) (showProgressBox s)) f Hfile Hbad)
      as (message & Hrun & _).
    exists message. exact Hrun. }
  destruct Hreq as (message & Hrun).
  unfold Upload.onSubmit, Upload.onSubmit_begin, onSubmit_catch, setIsLoading,
    try_catch, bind, modify, perform, ret.
  cbn [outcome after effects]. rewrite Hrun. cbn.
  repeat split; try reflexivity.
  - exists message. reflexivity.
  - intros formData meta [Hin | []]. discriminate Hin.
Qed.

(** C6: when the file is valid and the createVideo call fails, onSubmit
    shows the error and re-enables the form, holds no new socket, but leaves
    showProgressBox set to true. *)
Theorem onSubmit_rejected_keeps_progress_box
    (values : FormValues) (message : string) (s : UploadState) (f : File) :
  videoFile s = Some f ->
  type f = "video/mp4" ->
  size f <= videoSizeLimit ->
  outcome (onSubmit values (Rejected message) s) = Normal tt /\
  (exists formData meta,
      effects (onSubmit values (Rejected message) s) =
      [CreateVideo formData meta; ShowNotification "error" message]) /\
  isLoading (after (onSubmit values (Rejected message) s)) = false /\
  socketRef (after (onSubmit values (Rejected message) s)) = socketRef s /\
  showProgressBox (after (onSubmit values (Rejected message) s)) = true.
Proof.
  intros Hfile Hty Hsz. run_handler. rewrite Hfile, Hty.
  assert (Hle : (size f >? videoSizeLimit) = false)
    by (rewrite Z.gtb_ltb; apply Z.ltb_ge; lia).
  rewrite Hle. cbn.
  repeat split; try reflexivity.
  eexists. eexists. reflexivity.
Qed.

End Page.

(** C2: with a socket held, cancelFn emits cancelCompression on it, then
    disconnects it, and leaves socketRef null, uploadProgress 0,
    compressionProgress at percent 0 and empty eta, the progress box hidden
    and isLoading false. *)
Theorem cancelFn_open_channel (s : UploadState) (sock : Socket) :
  socketRef s = Some sock ->
  outcome (cancelFn s) = Normal tt /\
  effects (cancelFn s) = [SocketEmit sock "cancelCompression"; SocketDisconnect sock] /\
  socketRef (after (cancelFn s)) = None /\
  uploadProgress (after (cancelFn s)) = 0 /\
  compressionProgress (after (cancelFn s)) = mkCompression 0 "" /\
  showProgressBox (after (cancelFn s)) = false /\
  isLoading (after (cancelFn s)) = false /\
  videoFile (after (cancelFn s)) = videoFile s.
Proof.
  intros Hsock. rewrite cancelFn_run, Hsock. cbn. repeat split.
Qed.

(** C3: cancelFn never throws, whether or not a socket is held; it always
    leaves uploadProgress 0 and compressionProgress at percent 0 and empty
    eta; a second cancelFn right after the first makes no call and changes
    nothing, so that two in a row equal one. *)
Theorem cancelFn_idempotent (s : UploadState) :
  outcome (cancelFn s) = Normal tt /\
  uploadProgress (after (cancelFn s)) = 0 /\
  compressionProgress (after (cancelFn s)) = mkCompression 0 "" /\
  cancelFn (after (cancelFn s)) = mkRun (Normal tt) (after (cancelFn s)) [] /\
  (cancelFn ;; cancelFn) s = cancelFn s.
Proof.
  assert (Hsecond : cancelFn (after (cancelFn s)) = mkRun (Normal tt) (after (cancelFn s)) []).
  { rewrite (cancelFn_run (after (cancelFn s))). rewrite (cancelFn_run s). reflexivity. }
  repeat split; try (rewrite cancelFn_run; reflexivity).
  - exact Hsecond.
  - unfold bind. rewrite (cancelFn_run s). rewrite cancelFn_run.
    cbn [videoFile socketRef]. rewrite app_nil_r. reflexivity.
Qed.

(** C4: errFn shows the notification Compression error: followed by the
    message, then does what cancelFn does: the resulting state is the state
    cancelFn produces, with socketRef null, the progress values reset and the
    progress box hidden. *)
Theorem errFn_notifies_then_cancels (message : string) (s : UploadState) :
  outcome (errFn message s) = Normal tt /\
  effects (errFn message s) =
    ShowNotification "error" ("Compression error: " ++ message) :: effects (cancelFn s) /\
  after (errFn message s) = after (cancelFn s) /\
  socketRef (after (errFn message s)) = None /\
  uploadProgress (after (errFn message s)) = 0 /\
  compressionProgress (after (errFn message s)) = mkCompression 0 "" /\
  showProgressBox (after (errFn message s)) = false.
Proof.
  unfold errFn, bind, perform. rewrite cancelFn_run. cbn. repeat split.
Qed.

(** *** Progress callbacks *)

Lemma last_cons_default {A} (l : list A) (a d : A) : last (a :: l) d = last l a.
Proof.
  revert a d. induction l as [| b l IH]; intros a d; [reflexivity |].
  change (last (a :: b :: l) d) with (last (b :: l) d).
  rewrite (IH b d). symmetry. apply IH.
Qed.

(** C9: progressFn with an upload value replaces uploadProgress and nothing
    else, with a compression value replaces compressionProgress and nothing
    else, and makes no collaborator call; after any sequence of callbacks of
    both kinds, each of the two fields holds the last value delivered for it
    (or its former value when none was) and every other field is as before. *)
Theorem progressFn_frame (p : Progress) (ps : list Progress) (s : UploadState) :
  progressFn p s =
    mkRun (Normal tt)
          (match p with
           | UploadP v =>
               mkUpload (socketRef s) (isLoading s) (videoFile s) v
                        (compressionProgress s) (showProgressBox s)
           | CompressP v =>
               mkUpload (socketRef s) (isLoading s) (videoFile s) (uploadProgress s)
                        v (showProgressBox s)
           end) [] /\
  progressAll ps s =
    mkRun (Normal tt)
          (mkUpload (socketRef s) (isLoading s) (videoFile s)
                    (last (uploadsReceived ps) (uploadProgress s))
                    (last (compressionsReceived ps) (compressionProgress s))
                    (showProgressBox s)) [].
Proof.
  split.
  - destruct p; reflexivity.
  - revert s. induction ps as [| q ps IH]; intros s.
    + cbn. rewrite <- UploadState_eta. reflexivity.
    + cbn [progressAll]. unfold bind.
      destruct q as [v | v]; cbn [progressFn setUploadProgress setCompressionProgress modify];
        rewrite IH; cbn [socketRef isLoading videoFile uploadProgress compressionProgress
                         showProgressBox uploadsReceived compressionsReceived app];
        rewrite last_cons_default; reflexivity.
Qed.

Lemma Sorted_cons_iff (a b : Z) (l : list Z) :
  Sorted Z.le (a :: b :: l) <-> a <= b /\ Sorted Z.le (b :: l).
Proof.
  split.
  - intros H. inversion H as [| x y Hs Hr]; subst.
    inversion Hr; subst. split; assumption.
  - intros [Hab Hs]. constructor; [assumption | constructor; assumption].
Qed.

Lemma uploadHistory_sorted (ps : list Progress) (s : UploadState) :
  Sorted Z.le (uploadHistory ps s) <-> Sorted Z.le (uploadProgress s :: uploadsReceived ps).
Proof.
  revert s. induction ps as [| p ps IH]; intros s.
  - reflexivity.
  - cbn [uploadHistory uploadsReceived].
    specialize (IH (after (progressFn p s))).
    destruct p as [v | v]; cbn [progressFn setUploadProgress setCompressionProgress
                                modify after uploadProgress] in *.
    + rewrite Sorted_cons_iff. rewrite <- IH.
      destruct ps; cbn [uploadHistory uploadProgress] in *;
        (split; [intros H; inversion H as [| x y Hs Hr]; subst; inversion Hr; subst;
                 split; assumption
                | intros [Hle Hs]; constructor; [assumption | constructor; assumption]]).
    + rewrite <- IH.
      destruct ps; cbn [uploadHistory uploadProgress] in *;
        (split; [intros H; inversion H; subst; assumption
                | intros Hs; constructor; [assumption | constructor; lia]]).
Qed.

Lemma percentHistory_sorted (ps : list Progress) (s : UploadState) :
  Sorted Z.le (percentHistory ps s) <->
  Sorted Z.le (percent (compressionProgress s) :: percentsReceived ps).
Proof.
  revert s. induction ps as [| p ps IH]; intros s.
  - reflexivity.
  - cbn [percentHistory percentsReceived].
    specialize (IH (after (progressFn p s))).
    destruct p as [v | v]; cbn [progressFn setUploadProgress setCompressionProgress
                                modify after compressionProgress] in *.
    + rewrite <- IH.
      destruct ps; cbn [percentHistory compressionProgress] in *;
        (split; [intros H; inversion H; subst; assumption
                | intros Hs; constructor; [assumption | constructor; lia]]).
    + rewrite Sorted_cons_iff. rewrite <- IH.
      destruct ps; cbn [percentHistory compressionProgress] in *;
        (split; [intros H; inversion H as [| x y Hs Hr]; subst; inversion Hr; subst;
                 split; assumption
                | intros [Hle Hs]; constructor; [assumption | constructor; assumption]]).
Qed.

(** C8, as amended: progressFn stores what it receives, so the successive
    values of uploadProgress are non-decreasing exactly when the upload values
    delivered, taken after the current one, are non-decreasing, and likewise
    for compressionProgress.percent; the handler imposes no order itself. *)
Theorem progress_history_sorted_iff (ps : list Progress) (s : UploadState) :
  (Sorted Z.le (uploadHistory ps s) <->
   Sorted Z.le (uploadProgress s :: uploadsReceived ps)) /\
  (Sorted Z.le (percentHistory ps s) <->
   Sorted Z.le (percent (compressionProgress s) :: percentsReceived ps)).
Proof.
  split; [apply uploadHistory_sorted | apply percentHistory_sorted].
Qed.

(** C8 as stated fails: after the upload values 50 and 30 the stored
    uploadProgress has gone down, and so has the stored percent after the
    compression values 50 and 30. *)
Lemma progress_history_can_decrease :
  ~ Sorted Z.le (uploadHistory [UploadP 50; UploadP 30] initialState) /\
  ~ Sorted Z.le (percentHistory [CompressP (mkCompression 50 "1m");
                                 CompressP (mkCompression 30 "2m")] initialState).
Proof.
  split; cbn; intros H;
    inversion H as [| a l H1 _]; subst;
    inversion H1 as [| a l _ H2]; subst;
    inversion H2; subst; lia.
Qed.

(** *** The channel reference along a session *)

Section SessionFacts.

Variable videoSizeLimit : Z.
Variables username token : string.

Local Abbreviation fire := (fire videoSizeLimit username token).
Local Abbreviation run := (run videoSizeLimit username token).

(** [onSubmit], up to its await, either reaches the createVideo call with
    [isLoading] set, or has caught its own error; it never touches the
    socket reference. *)
Lemma onSubmit_begin_cases (values : FormValues) (s : UploadState) :
  exists reached s1 e1,
    onSubmit_begin videoSizeLimit username token values s = mkRun (Normal reached) s1 e1 /\
    socketRef s1 = socketRef s /\
    isLoading s1 = reached.
Proof.
  unfold onSubmit_begin, onSubmit_request, onSubmit_catch, setIsLoading,
    setShowProgressBox, try_catch, bind, ret, throw, perform, modify, get.
  cbn [videoFile].
  destruct (videoFile s) as [f |].
  - destruct (negb (type f =? "video/mp4")%string).
    + do 3 eexists. split; [reflexivity | split; reflexivity].
    + destruct (size f >? videoSizeLimit).
      * do 3 eexists. split; [reflexivity | split; reflexivity].
      * do 3 eexists. split; [reflexivity | split; reflexivity].
  - do 3 eexists. split; [reflexivity | split; reflexivity].
Qed.

Ltac phase_cases :=
  repeat match goal with
         | H : _ \/ _ |- _ => destruct H
         | H : _ /\ _ |- _ => destruct H
         end;
  try discriminate; try congruence; auto.

Lemma initial_channel_inv : channel_inv initialSession.
Proof.
  split; cbn.
  - split; [intros H; now elim H | intros [H | H]; discriminate H].
  - discriminate.
Qed.

Lemma fire_inversion (e : Event) (s s' : Session) :
  fire e s = Some s' ->
  mounted (phase s) = true /\
  delivered (phase s) e = true /\
  offered e (page s) = true /\
  s' = react videoSizeLimit username token e s.
Proof.
  unfold Upload.fire. intros H.
  destruct (mounted (phase s)); [| discriminate H].
  destruct (delivered (phase s) e); [| discriminate H].
  destruct (offered e (page s)); [| discriminate H].
  inversion H. repeat split.
Qed.

Lemma fire_channel_inv (e : Event) (s s' : Session) :
  fire e s = Some s' -> channel_inv s -> channel_inv s'.
Proof.
  intros Hfire [Hsock Hload].
  destruct (fire_inversion e s s' Hfire) as (Hm & Hd & Ho & ->).
  destruct s as [pg ph lg]. unfold channel_inv. cbn [page phase] in *.
  destruct e as [f | values | [sock | message] | p | videoId | message |];
    cbn [react]; unfold handle; cbn [page phase log].
  - (* SelectFile *)
    cbn. split; assumption.
  - (* Submit *)
    destruct (onSubmit_begin_cases values pg) as (reached & s1 & e1 & Hrun & Hs1 & Hl1).
    rewrite Hrun.
    cbn [offered] in Ho. apply andb_prop in Ho. destruct Ho as [_ Hidle].
    apply negb_true_iff in Hidle.
    assert (Hnone : socketRef pg = None).
    { destruct (socketRef pg) eqn:E; [| reflexivity].
      assert (Hph : ph = Active \/ ph = Completed) by (apply Hsock; discriminate).
      destruct Hph as [-> | ->]; [| discriminate Hm].
      specialize (Hload eq_refl). congruence. }
    destruct reached; cbn [page phase]; rewrite Hs1, Hnone; split.
    + split; [intros H; now elim H | intros [H | H]; discriminate H].
    + intros _. exact Hl1.
    + split; [intros H; now elim H | intros [H | H]; discriminate H].
    + discriminate.
  - (* Settle, resolved *)
    destruct ph; try discriminate Hd. cbn. split.
    + split; [intros _; now left | intros _; discriminate].
    + intros _. apply Hload. reflexivity.
  - (* Settle, rejected *)
    destruct ph; try discriminate Hd. cbn. split.
    + split; [intros H; apply Hsock in H; phase_cases | intros [H | H]; discriminate H].
    + discriminate.
  - (* OnProgress *)
    destruct p; cbn; split; assumption.
  - (* OnComplete *)
    destruct ph; try discriminate Hd. cbn. split.
    + split; [intros _; now right | intros _; apply Hsock; now left].
    + discriminate.
  - (* OnError *)
    unfold errFn, bind, perform. rewrite cancelFn_run. cbn. split.
    + split; [intros H; now elim H | intros [H | H]; discriminate H].
    + discriminate.
  - (* Cancel *)
    rewrite cancelFn_run. cbn. split.
    + split; [intros H; now elim H | intros [H | H]; discriminate H].
    + discriminate.
Qed.

Lemma run_channel_inv (tr : list Event) (s s' : Session) :
  run tr s = Some s' -> channel_inv s -> channel_inv s'.
Proof.
  revert s. induction tr as [| e tr IH]; intros s Hrun Hinv.
  - cbn in Hrun. inversion Hrun; subst. exact Hinv.
  - cbn [Upload.run] in Hrun. destruct (fire e s) as [s1 |] eqn:Hfire; [| discriminate].
    apply (IH s1 Hrun). exact (fire_channel_inv e s s1 Hfire Hinv).
Qed.

(** What the terminal handlers do to the socket reference. *)
Lemma fire_terminal_socket (e : Event) (s s' : Session) :
  fire e s = Some s' ->
  match e with
  | Cancel | OnError _ => socketRef (page s') = None
  | OnComplete _ => socketRef (page s') = socketRef (page s)
  | _ => True
  end.
Proof.
  intros Hfire. destruct (fire_inversion e s s' Hfire) as (_ & _ & _ & ->).
  destruct s as [pg ph lg].
  destruct e as [f | values | r | p | videoId | message |]; try exact I;
    cbn [react]; unfold handle; cbn [page phase log].
  - reflexivity.
  - unfold errFn, bind, perform. rewrite cancelFn_run. reflexivity.
  - rewrite cancelFn_run. reflexivity.
Qed.

(** C5, as amended: in every state a session reaches, socketRef is non-null
    exactly when createVideo has resolved and neither cancelFn nor errFn has
    run since, that is in the phases Active and Completed; it is null while
    the submission awaits createVideo; cancelFn and errFn leave it null and
    completeFn leaves it as it was. *)
Theorem channel_held_iff_opened (tr : list Event) (s : Session) :
  run tr initialSession = Some s ->
  (socketRef (page s) <> None <-> phase s = Active \/ phase s = Completed) /\
  (phase s = Submitting -> socketRef (page s) = None) /\
  (forall e s', fire e s = Some s' ->
     match e with
     | Cancel | OnError _ => socketRef (page s') = None
     | OnComplete _ => socketRef (page s') = socketRef (page s)
     | _ => True
     end).
Proof.
  intros Hrun.
  destruct (run_channel_inv tr initialSession s Hrun initial_channel_inv) as [Hsock _].
  split; [exact Hsock | split].
  - intros Hph. destruct (socketRef (page s)) eqn:E; [| reflexivity].
    assert (H : phase s = Active \/ phase s = Completed) by (apply Hsock; discriminate).
    destruct H as [H | H]; congruence.
  - intros e s'. apply fire_terminal_socket.
Qed.

End SessionFacts.

(** C5 as stated fails: once the submission has been made and createVideo is
    awaited, the submission is in flight and socketRef is null; and once
    completeFn has run, the submission has terminated and socketRef still
    holds the socket. *)
Lemma channel_iff_in_flight_fails :
  match run sampleLimit "ola" "t0k" [SelectFile (Some sampleFile); Submit sampleValues]
            initialSession with
  | Some s => ~ (socketRef (page s) <> None <-> in_flight (phase s) = true)
  | None => False
  end /\
  match run sampleLimit "ola" "t0k"
            [SelectFile (Some sampleFile); Submit sampleValues;
             Settle (Resolved 1%nat); OnProgress (UploadP 100); OnComplete "42"]
            initialSession with
  | Some s => ~ (socketRef (page s) <> None <-> in_flight (phase s) = true)
  | None => False
  end.
Proof.
  split; vm_compute.
  - intros [_ H]. specialize (H eq_refl). now elim H.
  - intros [H _]. assert (Hf : false = true) by (apply H; discriminate). discriminate Hf.
Qed.

(** *** The theorems above at the sample inputs *)

Lemma onSubmit_rejects_invalid_file_witness :
  outcome (onSubmit_begin sampleLimit "ola" "t0k" sampleValues oversizedState) = Normal false /\
  showProgressBox
    (after (onSubmit sampleLimit "ola" "t0k" sampleValues (Resolved 1%nat) oversizedState))
  = false.
Proof.
  pose proof (onSubmit_rejects_invalid_file sampleLimit "ola" "t0k" sampleValues
                (Resolved 1%nat) oversizedState (mkFile "video/mp4" 629145600)
                eq_refl (or_intror eq_refl)) as H.
  split; [apply H | apply H].
Defined.

Lemma onSubmit_rejected_keeps_progress_box_witness :
  showProgressBox
    (after (onSubmit sampleLimit "ola" "t0k" sampleValues (Rejected "Network Error")
              sampleState))
  = true.
Proof.
  apply (onSubmit_rejected_keeps_progress_box sampleLimit "ola" "t0k" sampleValues
           "Network Error" sampleState sampleFile eq_refl eq_refl).
  vm_compute. discriminate.
Defined.

Lemma cancelFn_open_channel_witness :
  effects (cancelFn uploadingState) =
    [SocketEmit 7%nat "cancelCompression"; SocketDisconnect 7%nat] /\
  socketRef (after (cancelFn uploadingState)) = None.
Proof.
  pose proof (cancelFn_open_channel uploadingState 7%nat eq_refl) as H.
  split; apply H.
Defined.

Lemma channel_held_iff_opened_witness :
  exists s,
    run sampleLimit "ola" "t0k" sampleTrace initialSession = Some s /\
    phase s = Active /\
    socketRef (page s) <> None.
Proof.
  eexists. split; [vm_compute; reflexivity |]. split; [reflexivity |].
  apply (channel_held_iff_opened sampleLimit "ola" "t0k" sampleTrace);
    [vm_compute; reflexivity | now left].
Defined.

End UploadFacts.

(** ** Properties of the video tag *)

Module VideoTagFacts.
Import VideoTag.

Section Facts.

Variable getTimeFromSeconds : Time -> string.

Local Abbreviation onVideoEvent := (onVideoEvent getTimeFromSeconds).
Local Abbreviation scrubAll := (scrubAll getTimeFromSeconds).
Local Abbreviation seekGesture := (seekGesture getTimeFromSeconds).

Lemma handleClick_paused (v : Video) : paused v = true -> handleClick v = (v, []).
Proof. intros H. unfold handleClick. rewrite H. reflexivity. Qed.

(** One scrubbing step on a paused element: the element stays paused,
    [wasPlaying] is kept, no method is called, and only a drag moves the
    position. *)
Lemma scrub_paused (g : Scrub) (s : Player) (v : Video) :
  videoRef s = Some v ->
  paused v = true ->
  exists s' v',
    scrub getTimeFromSeconds g s = (s', []) /\
    videoRef s' = Some v' /\
    paused v' = true /\
    wasPlaying s' = wasPlaying s /\
    currentTime v' = lastDrag [g] (currentTime v).
Proof.
  intros Hv Hp. destruct g as [t | ev]; cbn [scrub lastDrag].
  - unfold changeTime. rewrite Hv. do 2 eexists.
    split; [reflexivity |]. cbn. repeat split. exact Hp.
  - unfold VideoTag.onVideoEvent. rewrite Hv.
    destruct ev; try (do 2 eexists; split; [reflexivity |]; cbn;
                      repeat split; [exact Hv | exact Hp]).
    rewrite (handleClick_paused v Hp). do 2 eexists.
    split; [reflexivity |]. cbn. repeat split. exact Hp.
Qed.

Lemma lastDrag_cons (g : Scrub) (gs : list Scrub) (t0 : Time) :
  lastDrag (g :: gs) t0 = lastDrag gs (lastDrag [g] t0).
Proof. destruct g; reflexivity. Qed.

Lemma scrubAll_paused (gs : list Scrub) (s : Player) (v : Video) :
  videoRef s = Some v ->
  paused v = true ->
  exists s' v',
    scrubAll gs s = (s', []) /\
    videoRef s' = Some v' /\
    paused v' = true /\
    wasPlaying s' = wasPlaying s /\
    currentTime v' = lastDrag gs (currentTime v).
Proof.
  revert s v. induction gs as [| g gs IH]; intros s v Hv Hp.
  - exists s, v. cbn. repeat split; assumption.
  - destruct (scrub_paused g s v Hv Hp) as (s1 & v1 & Hstep & Hv1 & Hp1 & Hw1 & Ht1).
    destruct (IH s1 v1 Hv1 Hp1) as (s2 & v2 & Hrest & Hv2 & Hp2 & Hw2 & Ht2).
    exists s2, v2. cbn [VideoTag.scrubAll]. rewrite Hstep, Hrest.
    split; [reflexivity |]. repeat split; try assumption.
    + congruence.
    + rewrite lastDrag_cons, Ht2, Ht1. reflexivity.
Qed.

(** C7: on mousedown handleSeek records isPlaying in wasPlaying and pauses
    the element; changeTime sets currentTime (and curTime) to the value
    given; and over a whole gesture (mousedown, any scrubbing, mouseup) the
    release calls play exactly when isPlaying held at mousedown, so that the
    element ends up playing if and only if it did, at the last dragged
    position. *)
Theorem seek_gesture_resumes_iff_was_playing
    (gs : list Scrub) (t : Time) (s : Player) (v : Video) :
  videoRef s = Some v ->
  (exists s1 v1,
      handleSeek "mousedown" s = (s1, [Pause]) /\
      videoRef s1 = Some v1 /\
      wasPlaying s1 = isPlaying s /\
      paused v1 = true) /\
  (exists s' v',
      changeTime t s = (s', []) /\
      videoRef s' = Some v' /\
      currentTime v' = t /\
      curTime s' = t /\
      paused v' = paused v) /\
  (exists s3 v3,
      seekGesture gs s = (s3, Pause :: (if isPlaying s then [Play] else [])) /\
      videoRef s3 = Some v3 /\
      paused v3 = negb (isPlaying s) /\
      currentTime v3 = lastDrag gs (currentTime v) /\
      (isPlaying s = negb (paused v) -> paused v3 = paused v)).
Proof.
  intros Hv. split; [| split].
  - unfold handleSeek. rewrite Hv. cbn [String.eqb Ascii.eqb Bool.eqb].
    do 2 eexists. split; [reflexivity |]. cbn. repeat split.
  - unfold changeTime. rewrite Hv. do 2 eexists.
    split; [reflexivity |]. cbn. repeat split.
  - unfold VideoTag.seekGesture.
    assert (Hdown : handleSeek "mousedown" s =
                    (withVideo (video_pause v) (setWasPlaying (isPlaying s) s), [Pause])).
    { unfold handleSeek. rewrite Hv. reflexivity. }
    rewrite Hdown.
    destruct (scrubAll_paused gs
                (withVideo (video_pause v) (setWasPlaying (isPlaying s) s))
                (video_pause v) eq_refl eq_refl)
      as (s2 & v2 & Hmid & Hv2 & Hp2 & Hw2 & Ht2).
    rewrite Hmid. cbn [wasPlaying withVideo setWasPlaying] in Hw2.
    unfold handleSeek. rewrite Hv2, Hw2. cbn [String.eqb Ascii.eqb Bool.eqb].
    destruct (isPlaying s) eqn:Hplay; cbn [app].
    + do 2 eexists. split; [reflexivity |]. cbn. repeat split.
      * exact Ht2.
      * intros Hsync. destruct (paused v); [discriminate Hsync | reflexivity].
    + exists s2, v2. split; [reflexivity |]. repeat split; try assumption.
      intros Hsync. destruct (paused v); [exact Hp2 | discriminate Hsync].
Qed.

(** C10: the click listener of the element never calls play; on an element
    that is not paused it calls pause once, on a paused element it calls
    nothing and leaves the element as it is; no other part of the state
    changes. *)
Theorem click_pauses_never_plays (s : Player) :
  ~ In Play (snd (onVideoEvent Click s)) /\
  match videoRef s with
  | Some v =>
      snd (onVideoEvent Click s) = (if paused v then [] else [Pause]) /\
      fst (onVideoEvent Click s) =
        withVideo (if paused v then v else video_pause v) s /\
      paused (if paused v then v else video_pause v) = true
  | None => onVideoEvent Click s = (s, [])
  end.
Proof.
  unfold VideoTag.onVideoEvent, handleClick.
  destruct (videoRef s) as [v |].
  - destruct (paused v) eqn:Hp; cbn.
    + split; [tauto |]. repeat split. exact Hp.
    + split; [intros [H | []]; discriminate H |]. repeat split.
  - cbn. split; [tauto | reflexivity].
Qed.

End Facts.

(** The seek theorem on a playing element dragged to 12.5 s and to 3 s. *)
Lemma seek_gesture_witness :
  exists s3 v3,
    seekGesture (fun _ => "00:30") [Drag (25 # 2)%Q; Fired PauseEvent; Drag 3%Q]
                (setIsPlaying true (initialPlayer None (mkVideo false 1%Q 30%Q false)))
    = (s3, [Pause; Play]) /\
    videoRef s3 = Some v3 /\
    paused v3 = false /\
    currentTime v3 = 3%Q.
Proof.
  destruct (seek_gesture_resumes_iff_was_playing (fun _ => "00:30")
              [Drag (25 # 2)%Q; Fired PauseEvent; Drag 3%Q] 0%Q
              (setIsPlaying true (initialPlayer None (mkVideo false 1%Q 30%Q false)))
              (mkVideo false 1%Q 30%Q false) eq_refl)
    as (_ & _ & s3 & v3 & Hrun & Hv & Hp & Ht & _).
  exists s3, v3. repeat split; assumption.
Defined.

End VideoTagFacts.

(** ** Further properties of the upload page *)

Module UploadExtras.
Import Upload.

Section Submission.

Variable videoSizeLimit : Z.
Variables username token : string.

Local Abbreviation onSubmit := (onSubmit videoSizeLimit username token).
Local Abbreviation onSubmit_begin := (onSubmit_begin videoSizeLimit username token).
Local Abbreviation onSubmit_request := (onSubmit_request videoSizeLimit username token).
Local Abbreviation acceptable := (acceptable videoSizeLimit).

(** The state in which [onSubmit] runs its checks, and the state in which it
    awaits [createVideo]. *)
Local Abbreviation loading s :=
  (mkUpload (socketRef s) true (videoFile s) (uploadProgress s)
            (compressionProgress s) (showProgressBox s)).
Local Abbreviation awaiting s :=
  (mkUpload (socketRef s) true (videoFile s) (uploadProgress s)
            (compressionProgress s) true).
Local Abbreviation failed s :=
  (mkUpload (socketRef s) false (videoFile s) (uploadProgress s)
            (compressionProgress s) (showProgressBox s)).

(** The checks of [onSubmit], case by case. *)
Lemma onSubmit_request_run (values : FormValues) (s : UploadState) :
  (exists f,
      videoFile s = Some f /\ type f = "video/mp4" /\ size f <= videoSizeLimit /\
      onSubmit_request values s =
        mkRun (Normal tt)
              (mkUpload (socketRef s) (isLoading s) (videoFile s) (uploadProgress s)
                        (compressionProgress s) true)
              [CreateVideo (multipart username token values f) (metadata username values)]) \/
  (previewShown s = false /\
   onSubmit_request values s = mkRun (Throw "Invalid video") s []) \/
  (exists f,
      videoFile s = Some f /\ type f = "video/mp4" /\ size f > videoSizeLimit /\
      onSubmit_request values s = mkRun (Throw "File too large") s []).
Proof.
  unfold Upload.onSubmit_request, previewShown, setShowProgressBox, bind, get, throw,
    perform, modify.
  destruct (videoFile s) as [f |] eqn:Hfile; [| right; left; split; reflexivity].
  destruct (String.eqb_spec (type f) "video/mp4") as [Hty | Hty]; cbn [negb].
  - destruct (size f >? videoSizeLimit) eqn:Hsz.
    + right; right. exists f.
      split; [reflexivity |]. split; [exact Hty |]. split; [| reflexivity].
      rewrite Z.gtb_ltb in Hsz. apply Z.ltb_lt in Hsz. lia.
    + left. exists f.
      split; [reflexivity |]. split; [exact Hty |].
      split; [| cbn; rewrite Hfile; reflexivity].
      rewrite Z.gtb_ltb in Hsz. apply Z.ltb_ge in Hsz. exact Hsz.
  - right; left. split; reflexivity.
Qed.

Lemma not_acceptable_invalid (s : UploadState) :
  previewShown s = false -> ~ acceptable s.
Proof.
  unfold previewShown. intros Hp (f & Hfile & Hty & _). rewrite Hfile, Hty in Hp.
  discriminate Hp.
Qed.

Lemma not_acceptable_large (s : UploadState) (f : File) :
  videoFile s = Some f -> size f > videoSizeLimit -> ~ acceptable s.
Proof.
  intros Hfile Hsz (g & Hg & _ & Hle). rewrite Hfile in Hg. inversion Hg; subst. lia.
Qed.

(** [onSubmit] in full, case by case. *)
Lemma onSubmit_run (values : FormValues) (r : CreateVideoResult) (s : UploadState) :
  (exists f,
      videoFile s = Some f /\ acceptable s /\
      onSubmit_begin values s =
        mkRun (Normal true) (awaiting s)
              [CreateVideo (multipart username token values f) (metadata username values)] /\
      onSubmit values r s =
        match r with
        | Resolved sock =>
            mkRun (Normal tt)
                  (mkUpload (Some sock) true (videoFile s) (uploadProgress s)
                            (compressionProgress s) true)
                  [CreateVideo (multipart username token values f) (metadata username values)]
        | Rejected message =>
            mkRun (Normal tt)
                  (mkUpload (socketRef s) false (videoFile s) (uploadProgress s)
                            (compressionProgress s) true)
                  [CreateVideo (multipart username token values f) (metadata username values);
                   ShowNotification "error" message]
        end) \/
  (exists message,
      ~ acceptable s /\
      (previewShown s = false /\ message = "Invalid video" \/
       previewShown s = true /\ message = "File too large") /\
      onSubmit_begin values s =
        mkRun (Normal false) (failed s) [ShowNotification "error" message] /\
      onSubmit values r s =
        mkRun (Normal tt) (failed s) [ShowNotification "error" message]).
Proof.
  destruct (onSubmit_request_run values (loading s))
    as [(f & Hfile & Hty & Hsz & Hrun) | [(Hprev & Hrun) | (f & Hfile & Hty & Hsz & Hrun)]];
    cbn [socketRef isLoading videoFile uploadProgress compressionProgress showProgressBox]
      in *.
  - left. exists f. split; [exact Hfile |]. split; [exists f; repeat split; assumption |].
    unfold Upload.onSubmit, Upload.onSubmit_begin, onSubmit_settle, onSubmit_catch,
      setIsLoading, setSocketRef, try_catch, bind, ret, throw, perform, modify.
    rewrite Hrun. split; [reflexivity |]. destruct r; reflexivity.
  - right. exists "Invalid video".
    split; [apply not_acceptable_invalid; exact Hprev |].
    split; [left; split; [exact Hprev | reflexivity] |].
    unfold Upload.onSubmit, Upload.onSubmit_begin, onSubmit_settle, onSubmit_catch,
      setIsLoading, setSocketRef, try_catch, bind, ret, throw, perform, modify.
    rewrite Hrun. split; reflexivity.
  - right. exists "File too large".
    split; [apply (not_acceptable_large s f Hfile Hsz) |].
    split; [right; split; [| reflexivity] |].
    { unfold previewShown. rewrite Hfile, Hty. reflexivity. }
    unfold Upload.onSubmit, Upload.onSubmit_begin, onSubmit_settle, onSubmit_catch,
      setIsLoading, setSocketRef, try_catch, bind, ret, throw, perform, modify.
    rewrite Hrun. split; reflexivity.
Qed.

(** X1: onSubmit reaches the createVideo call exactly when a file is
    selected, its type is video/mp4 and its size is at most videoSizeLimit (a
    file of exactly the limit is accepted); otherwise no createVideo call is
    made, however the call would have settled. *)
Theorem onSubmit_calls_createVideo_iff
    (values : FormValues) (r : CreateVideoResult) (s : UploadState) :
  (outcome (onSubmit_begin values s) = Normal true <-> acceptable s) /\
  ((exists formData meta, In (CreateVideo formData meta) (effects (onSubmit values r s)))
   <-> acceptable s).
Proof.
  destruct (onSubmit_run values r s)
    as [(f & Hfile & Hok & Hbegin & Hfull) | (message & Hbad & _ & Hbegin & Hfull)];
    rewrite Hbegin, Hfull; cbn [outcome effects].
  - split; split; intros _; try exact Hok; try reflexivity.
    do 2 eexists. destruct r; cbn; left; reflexivity.
  - split; split; try (intros H; now elim Hbad).
    intros (formData & meta & [H | []]). discriminate H.
Qed.

(** X2: when onSubmit rejects the selection it shows exactly one
    notification, whose message is Invalid video when no file is selected or
    the file is not of type video/mp4 (whatever its size), and File too large
    when the file is of type video/mp4 and larger than videoSizeLimit; the
    first case is the one in which the page shows no preview. *)
Theorem onSubmit_rejection_message
    (values : FormValues) (r : CreateVideoResult) (s : UploadState) :
  (previewShown s = false ->
   effects (onSubmit values r s) = [ShowNotification "error" "Invalid video"]) /\
  (forall f, videoFile s = Some f -> type f = "video/mp4" -> size f > videoSizeLimit ->
   effects (onSubmit values r s) = [ShowNotification "error" "File too large"]).
Proof.
  split.
  - intros Hprev.
    destruct (onSubmit_run values r s)
      as [(f & _ & Hok & _) | (message & _ & [[_ ->] | [Hp _]] & _ & Hfull)].
    + now elim (not_acceptable_invalid s Hprev).
    + rewrite Hfull. reflexivity.
    + congruence.
  - intros f Hfile Hty Hsz.
    destruct (onSubmit_run values r s)
      as [(g & _ & Hok & _) | (message & _ & [[Hp _] | [_ ->]] & _ & Hfull)].
    + now elim (not_acceptable_large s f Hfile Hsz).
    + unfold previewShown in Hp. rewrite Hfile, Hty in Hp. discriminate Hp.
    + rewrite Hfull. reflexivity.
Qed.

(** X3: with an acceptable file and createVideo resolving, onSubmit makes
    one collaborator call, createVideo, whose multipart body lists caption,
    tags, music, username, token and then the file, last; it then holds the
    socket, shows the progress box, keeps isLoading set and shows no
    notification. *)
Theorem onSubmit_resolved_opens_channel
    (values : FormValues) (sock : Socket) (s : UploadState) (f : File) :
  videoFile s = Some f ->
  type f = "video/mp4" ->
  size f <= videoSizeLimit ->
  effects (onSubmit values (Resolved sock) s) =
    [CreateVideo
       [ ("caption", FormText (caption values)); ("tags", FormText (tags values));
         ("music", FormText (music values)); ("username", FormText username);
         ("token", FormText token); ("video", FormBlob f) ]
       [ ("caption", caption values); ("music", music values);
         ("tags", tags values); ("username", username) ]] /\
  socketRef (after (onSubmit values (Resolved sock) s)) = Some sock /\
  showProgressBox (after (onSubmit values (Resolved sock) s)) = true /\
  isLoading (after (onSubmit values (Resolved sock) s)) = true.
Proof.
  intros Hfile Hty Hsz.
  destruct (onSubmit_run values (Resolved sock) s)
    as [(g & Hg & _ & _ & Hfull) | (message & Hbad & _)].
  - rewrite Hfile in Hg. inversion Hg; subst g. rewrite Hfull. repeat split.
  - elim Hbad. exists f. repeat split; assumption.
Qed.


End Submission.

Section Sessions.

Variable videoSizeLimit : Z.
Variables username token : string.

Local Abbreviation fire := (fire videoSizeLimit username token).
Local Abbreviation run := (run videoSizeLimit username token).
Local Abbreviation react := (react videoSizeLimit username token).

(** What an event adds to the session: the calls of its handler, after the
    calls made so far, and the state the handler leaves. *)
Lemma react_Submit (values : FormValues) (s : Session) :
  (exists f,
      acceptable videoSizeLimit (page s) /\
      react (Submit values) s =
        mkSession (mkUpload (socketRef (page s)) true (videoFile (page s))
                            (uploadProgress (page s)) (compressionProgress (page s)) true)
                  Submitting
                  (log s ++ [CreateVideo (multipart username token values f)
                                         (metadata username values)])) \/
  (exists message,
      react (Submit values) s =
        mkSession (mkUpload (socketRef (page s)) false (videoFile (page s))
                            (uploadProgress (page s)) (compressionProgress (page s))
                            (showProgressBox (page s)))
                  Idle
                  (log s ++ [ShowNotification "error" message])).
Proof.
  cbn [Upload.react].
  destruct (onSubmit_run videoSizeLimit username token values (Rejected "") (page s))
    as [(f & _ & Hok & Hbegin & _) | (message & _ & _ & Hbegin & _)]; rewrite Hbegin.
  - left. exists f. split; [exact Hok | reflexivity].
  - right. exists message. reflexivity.
Qed.

Lemma fire_box_inv (e : Event) (s s' : Session) :
  fire e s = Some s' -> box_inv s -> box_inv s'.
Proof.
  intros Hfire Hbox.
  destruct (UploadFacts.fire_inversion videoSizeLimit username token e s s' Hfire)
    as (Hm & Hd & _ & ->).
  destruct e as [f | values | [sock | message] | p | videoId | message |].
  - destruct s as [pg ph lg]. unfold box_inv in *. cbn in *. exact Hbox.
  - destruct (react_Submit values s) as [(f & _ & ->) | (message & ->)];
      unfold box_inv; cbn; trivial.
  - destruct s as [pg ph lg]. unfold box_inv in *. cbn in *.
    destruct ph; try discriminate Hd. exact Hbox.
  - destruct s as [pg ph lg]. unfold box_inv. cbn. exact I.
  - destruct s as [pg ph lg]. unfold box_inv in *. cbn in *.
    destruct p; cbn; exact Hbox.
  - destruct s as [pg ph lg]. unfold box_inv in *. cbn in *.
    destruct ph; try discriminate Hd. exact Hbox.
  - destruct s as [pg ph lg]. unfold box_inv. cbn [Upload.react]. unfold handle.
    cbn [page phase log]. unfold errFn, bind, perform.
    rewrite UploadFacts.cancelFn_run. cbn. exact I.
  - destruct s as [pg ph lg]. unfold box_inv. cbn [Upload.react]. unfold handle.
    cbn [page phase log]. rewrite UploadFacts.cancelFn_run. cbn. exact I.
Qed.

Lemma run_box_inv (tr : list Event) (s s' : Session) :
  run tr s = Some s' -> box_inv s -> box_inv s'.
Proof.
  revert s. induction tr as [| e tr IH]; intros s Hrun Hinv.
  - cbn in Hrun. inversion Hrun; subst. exact Hinv.
  - cbn [Upload.run] in Hrun. destruct (fire e s) as [s1 |] eqn:Hfire; [| discriminate].
    apply (IH s1 Hrun). exact (fire_box_inv e s s1 Hfire Hinv).
Qed.

(** X5: in every state a session reaches while a submission is being made
    or is active, isLoading is set, so the Post button is disabled and a
    second submission cannot start: at most one submission is in flight. *)
Theorem post_disabled_in_flight (tr : list Event) (s : Session) :
  run tr initialSession = Some s ->
  in_flight (phase s) = true ->
  isLoading (page s) = true /\
  (forall dirty isValid, postDisabled dirty isValid (page s) = true) /\
  (forall values, fire (Submit values) s = None).
Proof.
  intros Hrun Hflight.
  destruct (UploadFacts.run_channel_inv videoSizeLimit username token tr initialSession s
              Hrun UploadFacts.initial_channel_inv) as [_ Hload].
  specialize (Hload Hflight). split; [exact Hload | split].
  - intros dirty isValid. unfold postDisabled. rewrite Hload. apply orb_true_r.
  - intros values. unfold Upload.fire. cbn [offered]. rewrite Hload.
    cbn [negb]. rewrite !andb_false_r. reflexivity.
Qed.

(** X6: in every state a session reaches, whenever socketRef holds a socket
    the progress box is rendered, so that the Cancel button is on screen
    for as long as there is a socket to cancel. *)
Theorem progress_box_shown_with_channel (tr : list Event) (s : Session) :
  run tr initialSession = Some s ->
  socketRef (page s) <> None ->
  showProgressBox (page s) = true.
Proof.
  intros Hrun Hsock.
  destruct (UploadFacts.run_channel_inv videoSizeLimit username token tr initialSession s
              Hrun UploadFacts.initial_channel_inv) as [Hiff _].
  assert (Hbox : box_inv s) by (apply (run_box_inv tr initialSession s Hrun); exact I).
  unfold box_inv in Hbox. apply Hiff in Hsock.
  destruct Hsock as [Hph | Hph]; rewrite Hph in Hbox; exact Hbox.
Qed.

Lemma socket_discipline_app (l1 l2 : list Effect) (expect : option Socket) :
  socket_discipline expect l1 = true ->
  socket_discipline expect (l1 ++ l2) = socket_discipline None l2.
Proof.
  revert expect. induction l1 as [| e l1 IH]; intros expect H.
  - destruct expect; [discriminate H | reflexivity].
  - cbn [app socket_discipline] in *.
    destruct expect as [sock |], e as [k m | fd meta | sock' ev | sock' | path];
      try discriminate H; try (apply IH; exact H).
    + apply andb_prop in H. destruct H as [H1 H2]. rewrite H1. cbn [andb]. apply IH. exact H2.
    + apply andb_prop in H. destruct H as [H1 H2]. rewrite H1. cbn [andb]. apply IH. exact H2.
Qed.

Lemma react_log (e : Event) (s : Session) :
  exists calls, log (react e s) = log s ++ calls /\ socket_discipline None calls = true.
Proof.
  destruct e as [f | values | [sock | message] | p | videoId | message |].
  - exists []. split; reflexivity.
  - destruct (react_Submit values s) as [(f & _ & ->) | (message & ->)];
      eexists; split; reflexivity.
  - eexists. split; reflexivity.
  - eexists. split; reflexivity.
  - destruct p; eexists; split; reflexivity.
  - eexists. split; reflexivity.
  - cbn [Upload.react]. unfold handle, errFn, bind, perform.
    rewrite UploadFacts.cancelFn_run. cbn [log].
    destruct (socketRef (page s)) as [sock |]; eexists; (split; [reflexivity |]).
    + cbn. rewrite Nat.eqb_refl. reflexivity.
    + reflexivity.
  - cbn [Upload.react]. unfold handle. rewrite UploadFacts.cancelFn_run. cbn [log].
    destruct (socketRef (page s)) as [sock |]; eexists; (split; [reflexivity |]).
    + cbn. rewrite Nat.eqb_refl. reflexivity.
    + reflexivity.
Qed.

Lemma run_socket_discipline (tr : list Event) (s s' : Session) :
  run tr s = Some s' ->
  socket_discipline None (log s) = true ->
  socket_discipline None (log s') = true.
Proof.
  revert s. induction tr as [| e tr IH]; intros s Hrun Hlog.
  - cbn in Hrun. inversion Hrun; subst. exact Hlog.
  - cbn [Upload.run] in Hrun. destruct (fire e s) as [s1 |] eqn:Hfire; [| discriminate].
    apply (IH s1 Hrun).
    destruct (UploadFacts.fire_inversion videoSizeLimit username token e s s1 Hfire)
      as (_ & _ & _ & ->).
    destruct (react_log e s) as (calls & -> & Hcalls).
    rewrite (socket_discipline_app _ _ None Hlog). exact Hcalls.
Qed.

(** X7: along every session the only event the page emits on a socket is
    cancelCompression, each emission is followed at once by the disconnection
    of the same socket, and no socket is disconnected without it. *)
Theorem session_socket_discipline (tr : list Event) (s : Session) :
  run tr initialSession = Some s ->
  socket_discipline None (log s) = true.
Proof.
  intros Hrun. apply (run_socket_discipline tr initialSession s Hrun). reflexivity.
Qed.

End Sessions.

(** *** The theorems above at the sample inputs *)

Lemma onSubmit_resolved_opens_channel_witness :
  socketRef (after (onSubmit sampleLimit "ola" "t0k" sampleValues (Resolved 3%nat) sampleState))
  = Some 3%nat.
Proof.
  apply (onSubmit_resolved_opens_channel sampleLimit "ola" "t0k" sampleValues 3%nat
           sampleState sampleFile eq_refl eq_refl).
  vm_compute. discriminate.
Defined.

Lemma post_disabled_in_flight_witness :
  fire sampleLimit "ola" "t0k" (Submit sampleValues)
       (mkSession (mkUpload (Some 1%nat) true (Some sampleFile) 0 (mkCompression 0 "") true)
                  Active
                  [CreateVideo (multipart "ola" "t0k" sampleValues sampleFile)
                               (metadata "ola" sampleValues)])
  = None.
Proof.
  apply (post_disabled_in_flight sampleLimit "ola" "t0k" sampleTrace);
    vm_compute; reflexivity.
Defined.

Lemma progress_box_shown_with_channel_witness :
  showProgressBox
    (page (mkSession (mkUpload (Some 1%nat) true (Some sampleFile) 0 (mkCompression 0 "") true)
                     Active
                     [CreateVideo (multipart "ola" "t0k" sampleValues sampleFile)
                                  (metadata "ola" sampleValues)]))
  = true.
Proof.
  apply (progress_box_shown_with_channel sampleLimit "ola" "t0k" sampleTrace).
  - vm_compute. reflexivity.
  - discriminate.
Defined.

Lemma session_socket_discipline_witness :
  socket_discipline None
    (log (mkSession (mkUpload None false (Some sampleFile) 0 (mkCompression 0 "") false)
                    Cancelled
                    [CreateVideo (multipart "ola" "t0k" sampleValues sampleFile)
                                 (metadata "ola" sampleValues);
                     SocketEmit 1%nat "cancelCompression"; SocketDisconnect 1%nat]))
  = true.
Proof.
  apply (session_socket_discipline sampleLimit "ola" "t0k" (sampleTrace ++ [Cancel])).
  vm_compute. reflexivity.
Defined.

End UploadExtras.

(** ** Further properties of the video tag *)

Module VideoTagExtras.
Import VideoTag.

Section Inputs.

Variable getTimeFromSeconds : Time -> string.

Local Abbreviation playerStep := (playerStep getTimeFromSeconds).
Local Abbreviation playerRun := (playerRun getTimeFromSeconds).

(** X8: the play button is a toggle: it calls play on a paused element and
    pause on a playing one, each time with stopPropagation and
    preventDefault, and pressing it twice calls one of each and leaves the
    component and its element as they were; before the element is mounted
    it does nothing at all. *)
Theorem handlePlayPause_involutive (s : Player) :
  fst (handlePlayPause (fst (handlePlayPause s))) = s /\
  match videoRef s with
  | Some vid =>
      snd (handlePlayPause s) =
        [if paused vid then Play else Pause; StopPropagation; PreventDefault] /\
      snd (handlePlayPause (fst (handlePlayPause s))) =
        [if paused vid then Pause else Play; StopPropagation; PreventDefault]
  | None => handlePlayPause s = (s, [])
  end.
Proof.
  destruct s as [[[p t d m] |] w vd im ip sp sc ct]; [| split; reflexivity].
  destruct p; split; try split; reflexivity.
Qed.

(** X9: the mute button sets the element's muted attribute and the isMuted
    state to the negation of the isMuted state, so that afterwards the two
    agree whatever the attribute was before; it calls nothing, leaves the
    paused flag and the position alone, and pressed twice restores
    isMuted. *)
Theorem handleMute_syncs (s : Player) (vid : Video) :
  videoRef s = Some vid ->
  exists vid',
    handleMute s = (setIsMuted (negb (isMuted s)) (withVideo vid' s), []) /\
    muted vid' = negb (isMuted s) /\
    paused vid' = paused vid /\
    currentTime vid' = currentTime vid /\
    duration vid' = duration vid /\
    isMuted (fst (handleMute (fst (handleMute s)))) = isMuted s.
Proof.
  intros Hv. unfold handleMute. rewrite Hv. eexists. split; [reflexivity |].
  cbn. rewrite negb_involutive. repeat split.
Qed.

Lemma playerStep_synced (controls : bool) (i : Input) (s : Player) :
  synced s -> synced (fst (playerStep controls i s)).
Proof.
  unfold synced. intros H.
  destruct i as [ev | ev | | | t | etype]; cbn [VideoTag.playerStep].
  - unfold onVideoEvent. destruct (videoRef s) as [vid |] eqn:Hv; [| cbn; rewrite Hv; exact I].
    destruct ev; cbn; try rewrite Hv; try exact H;
      try (split; [reflexivity | apply H]).
    unfold handleClick. destruct (paused vid); cbn; exact H.
  - unfold onContainerEvent. destruct controls; cbn; [| exact H]. destruct ev; exact H.
  - unfold handlePlayPause. destruct (videoRef s) as [vid |] eqn:Hv; [| cbn; rewrite Hv; exact I].
    destruct (paused vid); cbn; exact H.
  - unfold handleMute. destruct (videoRef s) as [vid |] eqn:Hv; [| cbn; rewrite Hv; exact I].
    cbn. split; [apply H | reflexivity].
  - unfold changeTime. destruct (videoRef s) as [vid |] eqn:Hv; [| cbn; rewrite Hv; exact I].
    cbn. split; [reflexivity | apply H].
  - unfold handleSeek. destruct (videoRef s) as [vid |] eqn:Hv; [| cbn; rewrite Hv; exact I].
    destruct (etype =? "mousedown")%string; [cbn; exact H |].
    destruct (wasPlaying s); cbn; [exact H | rewrite Hv; exact H].
Qed.

(** X10: no handler of the component lets the mirrors drift from the
    element: if curTime equals the element's currentTime and isMuted equals
    its muted attribute, they still do after any sequence of element events,
    container events, button presses and seek-bar inputs. *)
Theorem playerRun_synced (controls : bool) (inputs : list Input) (s : Player) :
  synced s -> synced (fst (playerRun controls inputs s)).
Proof.
  revert s. induction inputs as [| i inputs IH]; intros s H; [exact H |].
  cbn [VideoTag.playerRun].
  pose proof (playerStep_synced controls i s H) as H1.
  destruct (playerStep controls i s) as [s1 c1]. cbn [fst] in H1.
  specialize (IH s1 H1).
  destruct (playerRun controls inputs s1) as [s2 c2]. exact IH.
Qed.

(** The element after a step that cannot call play: still there, and still
    paused if it was. *)
Lemma playerStep_no_play (controls : bool) (i : Input) (s : Player) :
  mayPlay i = false ->
  ~ In Play (snd (playerStep controls i s)) /\
  (forall vid, videoRef s = Some vid -> paused vid = true ->
     exists vid', videoRef (fst (playerStep controls i s)) = Some vid' /\ paused vid' = true).
Proof.
  intros Hi.
  destruct i as [ev | ev | | | t | etype]; cbn [VideoTag.playerStep mayPlay] in *;
    try discriminate Hi.
  - unfold onVideoEvent. destruct (videoRef s) as [vid |] eqn:Hv.
    + destruct ev; cbn; try (split; [tauto | intros v Hv' Hp; rewrite Hv; eauto]).
      unfold handleClick. destruct (paused vid) eqn:Hp; cbn.
      * split; [tauto | intros v Hv' Hp'; eauto].
      * split; [intros [H | []]; discriminate H | intros v Hv' Hp'; eauto].
    + cbn. split; [tauto | intros v Hv'; discriminate Hv'].
  - cbn. split; [tauto |]. intros vid Hv Hp. exists vid. split; [| exact Hp].
    unfold onContainerEvent. destruct controls; cbn; [destruct ev |]; exact Hv.
  - unfold handleMute. destruct (videoRef s) as [vid |] eqn:Hv; cbn.
    + split; [tauto |]. intros v Hv' Hp. inversion Hv'; subst. eauto.
    + split; [tauto | intros v Hv'; discriminate Hv'].
  - unfold changeTime. destruct (videoRef s) as [vid |] eqn:Hv; cbn.
    + split; [tauto |]. intros v Hv' Hp. inversion Hv'; subst. eauto.
    + split; [tauto | intros v Hv'; discriminate Hv'].
  - apply negb_false_iff in Hi. unfold handleSeek. rewrite Hi.
    destruct (videoRef s) as [vid |] eqn:Hv; cbn.
    + split; [intros [H | []]; discriminate H | intros v Hv' Hp; eauto].
    + split; [tauto | intros v Hv'; discriminate Hv'].
Qed.

(** X11: play is only ever called by the play button and by a release of
    the seek bar: over any sequence of other inputs (element events, clicks
    on the video surface, container events, the mute button, seek-bar
    changes and mousedown) the component never calls play, and a paused
    element is still paused at the end. *)
Theorem play_needs_button_or_release (controls : bool) (inputs : list Input) (s : Player) :
  forallb (fun i => negb (mayPlay i)) inputs = true ->
  ~ In Play (snd (playerRun controls inputs s)) /\
  (forall vid, videoRef s = Some vid -> paused vid = true ->
     exists vid', videoRef (fst (playerRun controls inputs s)) = Some vid' /\
                  paused vid' = true).
Proof.
  revert s. induction inputs as [| i inputs IH]; intros s Hall.
  - cbn. split; [tauto | eauto].
  - cbn [forallb] in Hall. apply andb_prop in Hall. destruct Hall as [Hi Hall].
    apply negb_true_iff in Hi.
    destruct (playerStep_no_play controls i s Hi) as [Hcalls Hkeep].
    cbn [VideoTag.playerRun].
    destruct (playerStep controls i s) as [s1 c1]. cbn [fst snd] in *.
    destruct (IH s1 Hall) as [Hcalls' Hkeep'].
    destruct (playerRun controls inputs s1) as [s2 c2]. cbn [fst snd] in *.
    split.
    + intros Hin. apply in_app_or in Hin. tauto.
    + intros vid Hv Hp. destruct (Hkeep vid Hv Hp) as (v1 & Hv1 & Hp1).
      exact (Hkeep' v1 Hv1 Hp1).
Qed.

Lemma playerStep_unmounted (controls : bool) (i : Input) (s : Player) :
  videoRef s = None ->
  exists b, playerStep controls i s = (setShowControls b s, []).
Proof.
  intros Hv.
  destruct i as [ev | ev | | | t | etype]; cbn [VideoTag.playerStep];
    unfold onVideoEvent, handlePlayPause, handleMute, changeTime, handleSeek;
    try rewrite Hv; try (exists (showControls s); destruct s; reflexivity).
  unfold onContainerEvent. destruct controls; cbn.
  - destruct ev; eexists; reflexivity.
  - exists (showControls s). destruct s; reflexivity.
Qed.

(** X12: while the element is not mounted (videoRef is null) every handler
    returns at once: over any sequence of inputs nothing is called, and the
    state is unchanged except for showControls, which the container
    listeners still set. *)
Theorem playerRun_unmounted (controls : bool) (inputs : list Input) (s : Player) :
  videoRef s = None ->
  exists b, playerRun controls inputs s = (setShowControls b s, []).
Proof.
  revert s. induction inputs as [| i inputs IH]; intros s Hv.
  - exists (showControls s). destruct s; reflexivity.
  - cbn [VideoTag.playerRun].
    destruct (playerStep_unmounted controls i s Hv) as (b & ->).
    destruct (IH (setShowControls b s) Hv) as (b' & ->).
    exists b'. reflexivity.
Qed.

Lemma playerStep_showControls (controls : bool) (i : Input) (s : Player) :
  showControls (fst (playerStep controls i s)) =
  if controls then pointerInside [i] (showControls s) else showControls s.
Proof.
  destruct i as [ev | ev | | | t | etype]; cbn [VideoTag.playerStep].
  - unfold onVideoEvent. destruct (videoRef s) as [vid |].
    + destruct ev; cbn; try (destruct controls; reflexivity).
      unfold handleClick. destruct (paused vid); cbn; destruct controls; reflexivity.
    + cbn. destruct controls; reflexivity.
  - unfold onContainerEvent. destruct controls, ev; reflexivity.
  - unfold handlePlayPause. destruct (videoRef s) as [vid |]; [destruct (paused vid) |];
      cbn; destruct controls; reflexivity.
  - unfold handleMute. destruct (videoRef s); cbn; destruct controls; reflexivity.
  - unfold changeTime. destruct (videoRef s); cbn; destruct controls; reflexivity.
  - unfold handleSeek. destruct (videoRef s) as [vid |];
      [destruct (etype =? "mousedown")%string; [| destruct (wasPlaying s)] |];
      cbn; destruct controls; reflexivity.
Qed.

Lemma pointerInside_cons (i : Input) (inputs : list Input) (b0 : bool) :
  pointerInside (i :: inputs) b0 = pointerInside inputs (pointerInside [i] b0).
Proof. destruct i as [ev | [|] | | | t | etype]; reflexivity. Qed.

(** X14: showControls is changed by nothing but the container listeners,
    which exist only with the controls prop: after any sequence of inputs it
    tells whether the pointer last entered the container (with the prop) or
    is what it was (without), and the overlay is rendered exactly when the
    prop is set, the spinner is off and the pointer is inside. *)
Theorem playerRun_showControls (controls : bool) (inputs : list Input) (s : Player) :
  showControls (fst (playerRun controls inputs s)) =
    (if controls then pointerInside inputs (showControls s) else showControls s) /\
  controlsShown controls (fst (playerRun controls inputs s)) =
    controls && negb (showSpinner (fst (playerRun controls inputs s)))
    && pointerInside inputs (showControls s).
Proof.
  assert (H : showControls (fst (playerRun controls inputs s)) =
              if controls then pointerInside inputs (showControls s) else showControls s).
  { revert s. induction inputs as [| i inputs IH]; intros s.
    - destruct controls; reflexivity.
    - cbn [VideoTag.playerRun].
      pose proof (playerStep_showControls controls i s) as Hstep.
      destruct (playerStep controls i s) as [s1 c1]. cbn [fst] in Hstep.
      specialize (IH s1). destruct (playerRun controls inputs s1) as [s2 c2].
      cbn [fst] in *. rewrite IH, Hstep.
      destruct controls; [| reflexivity].
      symmetry. apply pointerInside_cons. }
  split; [exact H |].
  unfold controlsShown. rewrite H. destruct controls; reflexivity.
Qed.

End Inputs.

(** The theorems above on a sample player. *)

Lemma handleMute_syncs_witness :
  exists vid',
    handleMute (initialPlayer (Some true) (mkVideo true 0%Q 30%Q false))
    = (setIsMuted false
         (withVideo vid' (initialPlayer (Some true) (mkVideo true 0%Q 30%Q false))), []) /\
    muted vid' = false.
Proof.
  destruct (handleMute_syncs (initialPlayer (Some true) (mkVideo true 0%Q 30%Q false))
              (mkVideo true 0%Q 30%Q false) eq_refl)
    as (vid' & Hrun & Hm & _).
  exists vid'. split; assumption.
Defined.

Lemma playerRun_synced_witness :
  synced (fst (playerRun (fun _ => "00:30") true
                 [OnVideo Loadedmetadata; OnContainer Mouseenter; MuteClick;
                  SeekMouse "mousedown"; SeekChange 12%Q; SeekMouse "mouseup"]
                 (initialPlayer None (mkVideo true 0%Q 30%Q false)))).
Proof.
  apply playerRun_synced. split; reflexivity.
Defined.

Lemma play_needs_button_or_release_witness :
  ~ In Play (snd (playerRun (fun _ => "00:30") true
                    [OnVideo Click; MuteClick; SeekMouse "mousedown"; SeekChange 5%Q;
                     OnVideo Timeupdate]
                    (initialPlayer None (mkVideo false 0%Q 30%Q false)))).
Proof.
  apply (play_needs_button_or_release (fun _ => "00:30") true
           [OnVideo Click; MuteClick; SeekMouse "mousedown"; SeekChange 5%Q;
            OnVideo Timeupdate]).
  reflexivity.
Defined.

Lemma playerRun_unmounted_witness :
  exists b,
    playerRun (fun _ => "00:30") true [PlayPauseClick; OnContainer Mouseenter; MuteClick]
              (mkPlayer None false "00:00" false false true false 0%Q)
    = (setShowControls b (mkPlayer None false "00:00" false false true false 0%Q), []).
Proof.
  apply playerRun_unmounted. reflexivity.
Defined.

End VideoTagExtras.

(** ** Properties of the profile card *)

Module ProfileCardFacts.
Import ProfileCard.

(** X13: on a profile card hovering only plays and pauses the element and a
    click only opens the modal: after any sequence of events the element is
    paused exactly when the last hover event was a mouseout (as before when
    there was none), its muted attribute and position are untouched, and
    showModal is set exactly when it was set before or a click occurred. *)
Theorem cardRun_hover_preview (evs : list CardEvent) (c : Card) :
  VideoTag.paused (video (fst (cardRun evs c))) = pausedAfter evs (VideoTag.paused (video c)) /\
  VideoTag.muted (video (fst (cardRun evs c))) = VideoTag.muted (video c) /\
  VideoTag.currentTime (video (fst (cardRun evs c))) = VideoTag.currentTime (video c) /\
  showModal (fst (cardRun evs c)) = showModal c || existsb isClick evs.
Proof.
  revert c. induction evs as [| ev evs IH]; intros c.
  - cbn. rewrite orb_false_r. repeat split.
  - cbn [cardRun].
    destruct (onCardEvent ev c) as [c1 e1] eqn:Hstep.
    specialize (IH c1). destruct (cardRun evs c1) as [c2 e2]. cbn [fst] in *.
    destruct IH as (Hp & Hm & Ht & Hs).
    destruct ev; cbn in Hstep; inversion Hstep; subst c1 e1; cbn in *;
      rewrite Hp, Hm, Ht, Hs; repeat split.
    symmetry. apply orb_true_r.
Qed.

End ProfileCardFacts.
